(** * Subscription detection and lifecycle engine

    A shallow embedding of [app/models.py], [app/services.py] and the
    decision endpoint of [app/main.py], followed by the properties of the
    engine that the design document states about it.

    Conventions of the embedding.
    - Python [int] is [Z]; [datetime] is a number of microseconds on one
      time line (all timestamps naive, as the tests produce them), [date]
      a day number on the same line; [timedelta.days] is the floor of the
      difference in days.
    - Money ([float] in the source) is an exact rational [Q]; [round(x, 2)]
      is rounding to the nearest hundredth, ties to even.  Binary rounding
      error of the floating-point operations is not represented.
    - [str] is [string], read as ASCII text: the character classes and the
      case mappings are those of the ASCII range.
    - [self._transactions] holds mutable records that other lists alias; a
      record is identified by its position in the ledger, and a write to a
      record is a write at that position.
    - [self._subscriptions] is an insertion-ordered dictionary: an
      association list with [dict_get] / [dict_set].
    - A method is a computation in a state-and-exception monad over the
      manager; the state reached when an exception is raised is kept. *)

From Stdlib Require Import QArith Qabs Qround Ascii.
From Stdlib Require String.
From Stdlib Require Import Sorting.Sorted.
From stdpp Require Import base list strings numbers.

Set Default Proof Using "Type".
Open Scope Z_scope.

(** ** Dates and times *)

Definition datetime := Z.
Definition date := Z.

Definition us_per_day : Z := 86400000000.

(** [timedelta(days=n)] *)
Definition timedelta (days : Z) : Z := days * us_per_day.

(** [(a - b).days] *)
Definition timedelta_days (a b : datetime) : Z := (a - b) `div` us_per_day.

(** [t.date()] *)
Definition datetime_date (t : datetime) : date := t `div` us_per_day.

(** [str(d)] for a [date]: the ISO form YYYY-MM-DD of the proleptic
    Gregorian calendar, day 0 being 1970-01-01. *)
Definition civil_from_days (d : date) : Z * Z * Z :=
  let z := d + 719468 in
  let era := z `div` 146097 in
  let doe := z - era * 146097 in
  let yoe := (doe - doe `div` 1460 + doe `div` 36524 - doe `div` 146096) `div` 365 in
  let doy := doe - (365 * yoe + yoe `div` 4 - yoe `div` 100) in
  let mp := (5 * doy + 2) `div` 153 in
  let dd := doy - (153 * mp + 2) `div` 5 + 1 in
  let mm := if decide (mp < 10) then mp + 3 else mp - 9 in
  let yy := yoe + era * 400 + (if decide (mm ≤ 2) then 1 else 0) in
  (yy, mm, dd).

Definition digit_char (n : Z) : ascii :=
  ascii_of_nat (48 + Z.to_nat (n `mod` 10)).

Fixpoint digits (width : nat) (n : Z) (acc : string) : string :=
  match width with
  | O => acc
  | S w => digits w (n `div` 10) (String (digit_char n) acc)
  end.

Definition date_str (d : date) : string :=
  let '(yy, mm, dd) := civil_from_days d in
  digits 4 yy (String "-" (digits 2 mm (String "-" (digits 2 dd EmptyString)))).

(** ** Money *)

(** Nearest integer, ties to even. *)
Definition round_half_even (q : Q) : Z :=
  let f := Qfloor q in
  match Qcompare (q - inject_Z f) (1 # 2) with
  | Lt => f
  | Gt => f + 1
  | Eq => if Z.even f then f else f + 1
  end.

(** [round(q, 2)] *)
Definition round2 (q : Q) : Q := Qred (inject_Z (round_half_even (q * 100)) / 100).

(** ** Text *)

Definition code (c : ascii) : nat := nat_of_ascii c.

Definition isupper (c : ascii) : bool := (65 <=? code c)%nat && (code c <=? 90)%nat.
Definition islower (c : ascii) : bool := (97 <=? code c)%nat && (code c <=? 122)%nat.
Definition isdigit (c : ascii) : bool := (48 <=? code c)%nat && (code c <=? 57)%nat.
Definition isalpha (c : ascii) : bool := isupper c || islower c.
Definition isalnum (c : ascii) : bool := isalpha c || isdigit c.
Definition isspace (c : ascii) : bool :=
  ((9 <=? code c)%nat && (code c <=? 13)%nat)
  || ((28 <=? code c)%nat && (code c <=? 32)%nat).

Definition char_lower (c : ascii) : ascii :=
  if isupper c then ascii_of_nat (code c + 32) else c.
Definition char_upper (c : ascii) : ascii :=
  if islower c then ascii_of_nat (code c - 32) else c.

Definition chars (s : string) : list ascii := String.list_ascii_of_string s.
Definition str (l : list ascii) : string := String.string_of_list_ascii l.

(** [s.lower()] *)
Definition lower (s : string) : string := str (char_lower <$> chars s).

(** [s.capitalize()] *)
Definition capitalize (s : string) : string :=
  match chars s with
  | [] => EmptyString
  | c :: l => str (char_upper c :: (char_lower <$> l))
  end.

(** [s.title()]: a letter that follows a letter is lowered, any other
    letter is raised. *)
Fixpoint title_chars (after_letter : bool) (l : list ascii) : list ascii :=
  match l with
  | [] => []
  | c :: l' =>
      (if after_letter then char_lower c else char_upper c)
        :: title_chars (isalpha c) l'
  end.
Definition title (s : string) : string := str (title_chars false (chars s)).

(** [s.strip()] *)
Fixpoint lstrip_chars (l : list ascii) : list ascii :=
  match l with
  | c :: l' => if isspace c then lstrip_chars l' else l
  | [] => []
  end.
Definition strip (s : string) : string :=
  str (reverse (lstrip_chars (reverse (lstrip_chars (chars s))))).

(** [s.split()]: the maximal runs of characters that are not white space. *)
Fixpoint split_chars (cur : list ascii) (l : list ascii) : list (list ascii) :=
  match l with
  | [] => match cur with [] => [] | _ => [reverse cur] end
  | c :: l' =>
      if isspace c
      then match cur with
           | [] => split_chars [] l'
           | _ => reverse cur :: split_chars [] l'
           end
      else split_chars (c :: cur) l'
  end.
Definition split (s : string) : list string := str <$> split_chars [] (chars s).

(** [needle in haystack] for strings *)
Fixpoint is_prefix (p l : list ascii) : bool :=
  match p, l with
  | [], _ => true
  | a :: p', b :: l' => bool_decide (a = b) && is_prefix p' l'
  | _ :: _, [] => false
  end.
Fixpoint contains_chars (p l : list ascii) : bool :=
  is_prefix p l || match l with [] => false | _ :: l' => contains_chars p l' end.
Definition contains (needle haystack : string) : bool :=
  contains_chars (chars needle) (chars haystack).

(** ** models.py *)

Inductive SubscriptionStatus := ACTIVE | CANCELLED.
Inductive SubscriptionDecision := CANCEL | RENEW.

#[global] Instance SubscriptionStatus_eq_dec : EqDecision SubscriptionStatus.
Proof. solve_decision. Defined.

Module TransactionIn.
Record t := mk {
  description : string;
  amount : Q;
  timestamp : datetime;
}.
End TransactionIn.

Module EmailIn.
Record t := mk {
  subject : string;
  body : string;
  timestamp : datetime;
}.
End EmailIn.

Module Subscription.
Record t := mk {
  id : Z;
  provider : string;
  reference : string;
  monthly_cost : Q;
  next_renewal_date : date;
  status : SubscriptionStatus;
  last_transaction_at : datetime;
  notes : option string;
}.

(** The [model_copy(update={...})] calls of [services.py], one per set
    of updated fields. *)
Definition copy_status_notes (s : t) (st : SubscriptionStatus) (n : string) : t :=
  mk (id s) (provider s) (reference s) (monthly_cost s)
     (next_renewal_date s) st (last_transaction_at s) (Some n).
Definition copy_status_renewal_notes
    (s : t) (st : SubscriptionStatus) (d : date) (n : string) : t :=
  mk (id s) (provider s) (reference s) (monthly_cost s)
     d st (last_transaction_at s) (Some n).
Definition copy_cost_renewal_last (s : t) (c : Q) (d : date) (l : datetime) : t :=
  mk (id s) (provider s) (reference s) c d (status s) l (notes s).
Definition copy_notes (s : t) (n : string) : t :=
  mk (id s) (provider s) (reference s) (monthly_cost s)
     (next_renewal_date s) (status s) (last_transaction_at s) (Some n).
Definition copy_renewal_notes (s : t) (d : date) (n : string) : t :=
  mk (id s) (provider s) (reference s) (monthly_cost s)
     d (status s) (last_transaction_at s) (Some n).
End Subscription.

Module DashboardSummary.
Record t := mk {
  active_subscriptions : Z;
  cancelled_subscriptions : Z;
  monthly_commitment : Q;
  total_savings : Q;
  upcoming_renewals : list Subscription.t;
}.
End DashboardSummary.

Module TransactionRecord.
Record t := mk {
  description_key : string;
  description : string;
  amount : Q;
  timestamp : datetime;
  subscription_id : option Z;
}.

(** [tx.subscription_id = sid] *)
Definition set_subscription_id (sid : Z) (tx : t) : t :=
  mk (description_key tx) (description tx) (amount tx) (timestamp tx) (Some sid).
End TransactionRecord.

Module EmailRecord.
Record t := mk {
  subject : string;
  body : string;
  timestamp : datetime;
  tags : list string;
}.
End EmailRecord.

(** ** The insertion-ordered dictionary [Dict[int, Subscription]] *)

Abbreviation dict := (list (Z * Subscription.t)).

(** [d.get(k)] *)
Fixpoint dict_get (d : dict) (k : Z) : option Subscription.t :=
  match d with
  | [] => None
  | (k', v) :: d' => if decide (k' = k) then Some v else dict_get d' k
  end.

(** [d[k] = v]: a present key keeps its place, a new key goes last. *)
Fixpoint dict_set (d : dict) (k : Z) (v : Subscription.t) : dict :=
  match d with
  | [] => [(k, v)]
  | (k', v') :: d' =>
      if decide (k' = k) then (k, v) :: d' else (k', v') :: dict_set d' k v
  end.

(** [d.keys()], [d.values()] *)
Definition dict_keys (d : dict) : list Z := d.*1.
Definition dict_values (d : dict) : list Subscription.t := d.*2.

(** ** The manager and its methods *)

Inductive exn :=
  | KeyError | IndexError | ValueError | ZeroDivisionError | RuntimeError.

Inductive outcome (A : Type) :=
  | Return (a : A)
  | Raise (e : exn).
Arguments Return {A} a.
Arguments Raise {A} e.

Record SubscriptionManager := Manager {
  _transactions : list TransactionRecord.t;
  _emails : list EmailRecord.t;
  _subscriptions : dict;
  _saved_total : Q;
  _sequence : Z;
}.

(** [SubscriptionManager()] *)
Definition init : SubscriptionManager := Manager [] [] [] 0%Q 0.

Definition set_transactions (m : SubscriptionManager) l :=
  Manager l (_emails m) (_subscriptions m) (_saved_total m) (_sequence m).
Definition set_emails (m : SubscriptionManager) l :=
  Manager (_transactions m) l (_subscriptions m) (_saved_total m) (_sequence m).
Definition set_subscriptions (m : SubscriptionManager) d :=
  Manager (_transactions m) (_emails m) d (_saved_total m) (_sequence m).
Definition set_saved_total (m : SubscriptionManager) q :=
  Manager (_transactions m) (_emails m) (_subscriptions m) q (_sequence m).
Definition set_sequence (m : SubscriptionManager) n :=
  Manager (_transactions m) (_emails m) (_subscriptions m) (_saved_total m) n.

(** A method body: from the manager to an outcome and the manager it leaves. *)
Definition M (A : Type) : Type := SubscriptionManager → outcome A * SubscriptionManager.

#[global] Instance M_ret : MRet M := λ A a m, (Return a, m).
#[global] Instance M_bind : MBind M :=
  λ A B f c m, match c m with
               | (Return a, m') => f a m'
               | (Raise e, m') => (Raise e, m')
               end.

Definition raise {A} (e : exn) : M A := λ m, (Raise e, m).
Definition get : M SubscriptionManager := λ m, (Return m, m).
Definition modify (f : SubscriptionManager → SubscriptionManager) : M unit :=
  λ m, (Return tt, f m).
Definition lift {A} (o : outcome A) : M A := λ m, (o, m).

(** *** Static helpers *)

(** [_normalize_description] *)
Definition _normalize_description (description : string) : string :=
  str (char_lower <$> List.filter isalnum (chars description)).

(** [_derive_provider_name] *)
Definition _derive_provider_name (reference : string) : string :=
  let cleaned :=
    str ((λ ch, if isalpha ch || isspace ch then ch else " "%char) <$> chars reference) in
  match split cleaned with
  | token :: _ => capitalize token
  | [] => title (strip reference)
  end.

(** [_average_amount]; the division raises on an empty list. *)
Definition _average_amount (records : list TransactionRecord.t) : outcome Q :=
  let total := foldl Qplus 0%Q (TransactionRecord.amount <$> records) in
  if decide (length records = 0%nat) then Raise ZeroDivisionError
  else Return (total / inject_Z (Z.of_nat (length records)))%Q.

(** [_classify_email] *)
Definition _classify_email (email : EmailIn.t) : list string :=
  let text := lower (EmailIn.subject email +:+ " " +:+ EmailIn.body email) in
  (if existsb (λ keyword, contains keyword text)
        ["renew"; "förnya"; "fornyelse"; "renewal"]%string
   then ["renewal_notice"%string] else [])
  ++
  (if existsb (λ keyword, contains keyword text)
        ["price increase"; "höjs"; "higher rate"]%string
   then ["price_increase"%string] else []).

(** *** Lists of ledger records *)

(** A reference to a ledger record: its position, with the contents read
    there. *)
Abbreviation txref := (nat * TransactionRecord.t)%type.

(** [l.sort(key=...)] and [sorted(l, key=...)]: stable, ascending in the
    key. *)
Section stable_sort.
Context {A : Type} (key : A → Z).

Fixpoint insert_by (x : A) (l : list A) : list A :=
  match l with
  | [] => [x]
  | y :: l' => if decide (key x ≤ key y) then x :: l else y :: insert_by x l'
  end.

Definition sort_by (l : list A) : list A := foldr insert_by [] l.

End stable_sort.

(** [max(l, key=lambda tx: tx.timestamp)]: the first of the greatest;
    raises on an empty list. *)
Definition max_by_timestamp (l : list TransactionRecord.t) : outcome TransactionRecord.t :=
  match l with
  | [] => Raise ValueError
  | x :: l' =>
      Return (foldl (λ best tx,
                if decide (TransactionRecord.timestamp best < TransactionRecord.timestamp tx)
                then tx else best) x l')
  end.

(** [[tx for tx in self._transactions if tx.description_key == key]],
    then sorted. *)
Definition similar_transactions (txs : list TransactionRecord.t) (key : string) : list txref :=
  sort_by (λ p : txref, TransactionRecord.timestamp p.2)
    (filter (λ p : txref, TransactionRecord.description_key p.2 = key) (imap pair txs)).

(** [[tx for tx in self._transactions if tx.subscription_id == subscription_id]] *)
Definition linked_transactions (txs : list TransactionRecord.t) (subscription_id : Z)
    : list TransactionRecord.t :=
  filter (λ tx, TransactionRecord.subscription_id tx = Some subscription_id) txs.

(** [for tx in transactions: tx.subscription_id = sid], on the ledger that
    holds the records. *)
Definition link_all (sid : Z) (transactions : list txref)
    (txs : list TransactionRecord.t) : list TransactionRecord.t :=
  foldl (λ l (p : txref), alter (TransactionRecord.set_subscription_id sid) p.1 l)
        txs transactions.


(** [record.subscription_id = sid] for the record appended last. *)
Definition link_last (sid : Z) (txs : list TransactionRecord.t) : list TransactionRecord.t :=
  alter (TransactionRecord.set_subscription_id sid) (pred (length txs)) txs.

(** *** Internal helpers of the manager *)

(** [_create_subscription_from_transaction] *)
Definition _create_subscription_from_transaction (transactions : list txref) : M Z :=
  match list.last transactions with
  | None => raise IndexError
  | Some latest =>
      let provider := _derive_provider_name (TransactionRecord.description latest.2) in
      amount ← lift (_average_amount transactions.*2);
      let next_renewal :=
        datetime_date (TransactionRecord.timestamp latest.2 + timedelta 30) in
      modify (λ m, set_sequence m (_sequence m + 1));;
      m ← get;
      let subscription :=
        Subscription.mk (_sequence m) provider (TransactionRecord.description latest.2)
          (round2 (Qabs amount)) next_renewal ACTIVE
          (TransactionRecord.timestamp latest.2) None in
      modify (λ m, set_subscriptions m
                     (dict_set (_subscriptions m) (Subscription.id subscription) subscription));;
      modify (λ m, set_transactions m
                     (link_all (Subscription.id subscription) transactions (_transactions m)));;
      mret (Subscription.id subscription)
  end.

(** [_update_subscription_from_transactions] *)
Definition _update_subscription_from_transactions (subscription_id : Z) : M unit :=
  m ← get;
  let subscription_transactions := linked_transactions (_transactions m) subscription_id in
  latest ← lift (max_by_timestamp subscription_transactions);
  avg_amount ← lift (_average_amount subscription_transactions);
  let next_renewal :=
    datetime_date (TransactionRecord.timestamp latest + timedelta 30) in
  match dict_get (_subscriptions m) subscription_id with
  | None => raise KeyError
  | Some old =>
      let subscription :=
        Subscription.copy_cost_renewal_last old (round2 (Qabs avg_amount))
          next_renewal (TransactionRecord.timestamp latest) in
      modify (λ m, set_subscriptions m
                     (dict_set (_subscriptions m) subscription_id subscription))
  end.

(** [_link_transaction]; [record] is the record that [register_transaction]
    has just appended, so the write to it is a write to the last ledger
    slot (and [self._transactions[-1] = record] stores it where it is). *)
Definition _link_transaction (record : TransactionRecord.t) : M (option Subscription.t) :=
  m ← get;
  let similar :=
    similar_transactions (_transactions m) (TransactionRecord.description_key record) in
  match reverse similar with
  | latest :: previous :: _ =>
      let interval :=
        timedelta_days (TransactionRecord.timestamp latest.2)
                       (TransactionRecord.timestamp previous.2) in
      if decide (27 ≤ interval ≤ 33) then
        subscription_id ←
          match TransactionRecord.subscription_id previous.2 with
          | Some sid =>
              if decide (sid = 0) then _create_subscription_from_transaction similar
              else mret sid
          | None => _create_subscription_from_transaction similar
          end;
        modify (λ m, set_transactions m (link_last subscription_id (_transactions m)));;
        _update_subscription_from_transactions subscription_id;;
        m ← get;
        match dict_get (_subscriptions m) subscription_id with
        | Some subscription => mret (Some subscription)
        | None => raise KeyError
        end
      else mret None
  | _ => mret None
  end.

(** The loop over [self._subscriptions.values()] that stores a copy of each
    value under [subscription.id] while the dictionary is being iterated:
    [n] values remain, the next one is at position [i]; the iterator
    raises when a store has changed the size of the dictionary. *)
Fixpoint price_increase_loop (note : string) (n i : nat) : M unit :=
  match n with
  | O => mret tt
  | S n' =>
      m ← get;
      match _subscriptions m !! i with
      | None => mret tt
      | Some (_, subscription) =>
          let d := dict_set (_subscriptions m) (Subscription.id subscription)
                            (Subscription.copy_notes subscription note) in
          modify (λ m, set_subscriptions m d);;
          if decide (length d = length (_subscriptions m))
          then price_increase_loop note n' (S i)
          else raise RuntimeError
      end
  end.

(** The loop over [matches], a list taken before the loop. *)
Definition renewal_notice_loop (next_date : date) (matches : list Subscription.t)
    (d : dict) : dict :=
  foldl (λ d subscription,
           dict_set d (Subscription.id subscription)
             (Subscription.copy_renewal_notes subscription next_date
                "Renewal reminder synced from email"))
        d matches.

(** [grouped.get(provider.lower())]: the values whose lowered provider is
    the lowered [provider], in dictionary order. *)
Definition provider_matches (provider : string) (d : dict) : list Subscription.t :=
  filter (λ s, lower (Subscription.provider s) = lower provider) (dict_values d).

(** [_maybe_update_subscription_from_email] *)
Definition _maybe_update_subscription_from_email (email : EmailRecord.t) : M unit :=
  (if decide ("price_increase"%string ∈ EmailRecord.tags email) then
     m ← get;
     price_increase_loop
       ("Price increase detected on " +:+ date_str (datetime_date (EmailRecord.timestamp email)))
       (length (_subscriptions m)) 0
   else mret tt);;
  (if decide ("renewal_notice"%string ∈ EmailRecord.tags email) then
     m ← get;
     let provider := _derive_provider_name (EmailRecord.subject email) in
     let matches := provider_matches provider (_subscriptions m) in
     let next_date := datetime_date (EmailRecord.timestamp email + timedelta 7) in
     modify (λ m, set_subscriptions m
                    (renewal_notice_loop next_date matches (_subscriptions m)))
   else mret tt).

(** *** Command handlers *)

(** [saved_total] (the property) *)
Definition saved_total (m : SubscriptionManager) : Q := round2 (_saved_total m).

(** [register_transaction] *)
Definition register_transaction (tx : TransactionIn.t) : M (option Subscription.t) :=
  let description_key := _normalize_description (TransactionIn.description tx) in
  let record :=
    TransactionRecord.mk description_key (TransactionIn.description tx)
      (TransactionIn.amount tx) (TransactionIn.timestamp tx) None in
  modify (λ m, set_transactions m (_transactions m ++ [record]));;
  _link_transaction record.

(** [ingest_email] *)
Definition ingest_email (email : EmailIn.t) : M EmailRecord.t :=
  let tags := _classify_email email in
  let record :=
    EmailRecord.mk (EmailIn.subject email) (EmailIn.body email)
      (EmailIn.timestamp email) tags in
  modify (λ m, set_emails m (_emails m ++ [record]));;
  _maybe_update_subscription_from_email record;;
  mret record.

(** [apply_decision] *)
Definition apply_decision (subscription_id : Z) (decision : SubscriptionDecision)
    : M Subscription.t :=
  m ← get;
  match dict_get (_subscriptions m) subscription_id with
  | None => raise KeyError
  | Some subscription =>
      subscription' ←
        match decision with
        | CANCEL =>
            (if decide (Subscription.status subscription ≠ CANCELLED) then
               modify (λ m, set_saved_total m
                              (_saved_total m + Subscription.monthly_cost subscription)%Q)
             else mret tt);;
            mret (Subscription.copy_status_notes subscription CANCELLED
                    "Cancelled via assistant")
        | RENEW =>
            let next_renewal := Subscription.next_renewal_date subscription + 30 in
            mret (Subscription.copy_status_renewal_notes subscription ACTIVE
                    next_renewal "Renewed via assistant")
        end;
      modify (λ m, set_subscriptions m
                     (dict_set (_subscriptions m) subscription_id subscription'));;
      mret subscription'
  end.

(** [dashboard]; [today] is what [datetime.utcnow().date()] reads. *)
Definition dashboard (today : date) (horizon_days : Z) : M DashboardSummary.t :=
  m ← get;
  let active :=
    filter (λ s, Subscription.status s = ACTIVE) (dict_values (_subscriptions m)) in
  let cancelled :=
    filter (λ s, Subscription.status s = CANCELLED) (dict_values (_subscriptions m)) in
  let upcoming_cutoff := today + horizon_days in
  let upcoming :=
    filter (λ s, Subscription.next_renewal_date s ≤ upcoming_cutoff) active in
  let monthly_commitment :=
    round2 (foldl Qplus 0%Q (Subscription.monthly_cost <$> active)) in
  mret (DashboardSummary.mk (Z.of_nat (length active)) (Z.of_nat (length cancelled))
          monthly_commitment (saved_total m) (sort_by Subscription.next_renewal_date upcoming)).

(** [dashboard()] with the default [horizon_days=14] *)
Definition dashboard_default (today : date) : M DashboardSummary.t := dashboard today 14.

(** ** main.py: the decision endpoint *)

Inductive response (A : Type) :=
  | Ok200 (a : A)
  | HTTPException (status_code : Z) (detail : string)
  | Unhandled (e : exn).
Arguments Ok200 {A} a.
Arguments HTTPException {A} status_code detail.
Arguments Unhandled {A} e.

(** [POST /subscriptions/{subscription_id}/decision] *)
Definition apply_decision_endpoint (subscription_id : Z) (decision : SubscriptionDecision)
    (m : SubscriptionManager) : response Subscription.t * SubscriptionManager :=
  let ids := Subscription.id <$> dict_values (_subscriptions m) in
  if decide (subscription_id ∉ ids) then
    (HTTPException 404 "Subscription not found", m)
  else
    match apply_decision subscription_id decision m with
    | (Return s, m') => (Ok200 s, m')
    | (Raise e, m') => (Unhandled e, m')
    end.

(** ** Engine operations and reachable states *)


Inductive operation :=
  | RegisterTransaction (tx : TransactionIn.t)
  | IngestEmail (email : EmailIn.t)
  | ApplyDecision (subscription_id : Z) (decision : SubscriptionDecision)
  | Dashboard (today : date) (horizon_days : Z).

(** The manager that an operation leaves, whether it returns or raises. *)
Definition perform (m : SubscriptionManager) (op : operation) : SubscriptionManager :=
  match op with
  | RegisterTransaction tx => (register_transaction tx m).2
  | IngestEmail email => (ingest_email email m).2
  | ApplyDecision subscription_id decision => (apply_decision subscription_id decision m).2
  | Dashboard today horizon_days => (dashboard today horizon_days m).2
  end.

Definition run (ops : list operation) : SubscriptionManager := foldl perform init ops.









(** Whether a subscription is one that a renewal notice with this subject
    is about. *)
Definition provider_matches_subject (subject : string) (s : Subscription.t) : Prop :=
  lower (Subscription.provider s) = lower (_derive_provider_name subject).

#[global] Instance provider_matches_subject_dec subject s :
  Decision (provider_matches_subject subject s).
Proof. unfold provider_matches_subject. apply _. Defined.









(** ** Sample inputs *)

(** Midnight of day [n]. *)
Definition day (n : Z) : datetime := n * us_per_day.

(** A debit of 99 described as "Spotify ABO", posted on day [n]. *)
Definition spotify (n : Z) : TransactionIn.t :=
  TransactionIn.mk "Spotify ABO" (-99) (day n).

(** Charges on days 0 and 30, then one on day 100, outside the window. *)
Definition gap_history : list operation :=
  RegisterTransaction <$> [spotify 0; spotify 30; spotify 100].

(** A notice that carries both tags and names no known provider. *)
Definition both_tags_email : EmailIn.t :=
  EmailIn.mk "Notice" "Your plan will renew at a higher rate" (day 40).

(** The reminder of the test suite, for the Spotify subscription. *)
Definition spotify_reminder : EmailIn.t :=
  EmailIn.mk "Spotify renewal reminder" "Your subscription will renew soon" (day 40).

(** A price notice. *)
Definition price_notice : EmailIn.t :=
  EmailIn.mk "Price update" "The price increase applies from next month" (day 40).

(** The identifier of the subscription that an ingestion returned. *)
Definition returned_id (o : outcome (option Subscription.t)) : option Z :=
  match o with
  | Return (Some s) => Some (Subscription.id s)
  | _ => None
  end.

(** The day on which the sample dashboard is read. *)
Definition today_sample : date := 40.

(** * Properties *)

(** ** The dictionary *)

Section dict_facts.
Implicit Types (d : dict) (k : Z) (v : Subscription.t).

Lemma dict_get_set_eq d k v : dict_get (dict_set d k v) k = Some v.
Proof.
  induction d as [|[k' v'] d IH]; simpl.
  - by rewrite decide_True.
  - destruct (decide (k' = k)) as [->|Hne]; simpl.
    + by rewrite decide_True.
    + by rewrite decide_False.
Qed.

Lemma dict_get_set_ne d k k' v :
  k ≠ k' → dict_get (dict_set d k v) k' = dict_get d k'.
Proof.
  intros Hne. induction d as [|[k0 v0] d IH]; simpl.
  - by rewrite decide_False.
  - destruct (decide (k0 = k)) as [->|Hne0]; simpl.
    + by rewrite !decide_False.
    + destruct (decide (k0 = k')); [done | apply IH].
Qed.

Lemma dict_get_None d k : dict_get d k = None ↔ k ∉ dict_keys d.
Proof.
  unfold dict_keys. induction d as [|[k' v'] d IH]; csimpl.
  - split; [intros _; apply not_elem_of_nil | done].
  - rewrite not_elem_of_cons. destruct (decide (k' = k)) as [->|Hne].
    + split; [done | intros [Hk _]; by destruct Hk].
    + rewrite IH. split; [intros ?; split; [congruence | done] | by intros [_ ?]].
Qed.







End dict_facts.

(** ** Stable sorting *)

Section stable_sort_facts.
Context {A : Type} (key : A → Z).
Implicit Types (x : A) (l : list A).







End stable_sort_facts.

(** ** Ledger lists *)

Section ledger_facts.
Implicit Types (txs : list TransactionRecord.t) (r : TransactionRecord.t).
Implicit Types (key : string) (sid : Z) (i : nat).









End ledger_facts.

(** ** Money *)







(** ** The methods, case by case *)

Ltac unfold_method :=
  unfold mbind, M_bind, mret, M_ret, modify, get, lift, raise; simpl.







Section link_transaction_cases.
Context (record : TransactionRecord.t) (m : SubscriptionManager).
Let similar :=
  similar_transactions (_transactions m) (TransactionRecord.description_key record).




End link_transaction_cases.

(** ** Ingesting a transaction *)







(** ** Ingesting an email *)

Section email_loops.
Implicit Types (d : dict) (s : Subscription.t) (k : Z).




Section fold.
Context (h : Subscription.t → Subscription.t).


End fold.



End email_loops.

(** ** Every reachable state is well formed *)














(** ** Cadence detection and linking *)












(** ** Decisions *)

(** C4. A decision for an identifier that the registry does not hold
    fails and changes nothing: the manager's [apply_decision] raises
    [KeyError] at its first statement, and the endpoint answers 404
    before it calls the manager; either way the manager (ledger, emails,
    registry, savings, sequence counter) is the one before the call. *)
Theorem unknown_identifier_rejected
    (m : SubscriptionManager) (subscription_id : Z) (decision : SubscriptionDecision) :
  (subscription_id ∉ dict_keys (_subscriptions m) →
   apply_decision subscription_id decision m = (Raise KeyError, m))
  ∧ (subscription_id ∉ Subscription.id <$> dict_values (_subscriptions m) →
     apply_decision_endpoint subscription_id decision m
     = (HTTPException 404 "Subscription not found", m)).
Proof.
  split.
  - intros Hk%dict_get_None. unfold apply_decision. unfold_method. by rewrite Hk.
  - intros Hid. unfold apply_decision_endpoint. by rewrite decide_True.
Qed.

Lemma unknown_identifier_rejected_witness :
  let m := run (RegisterTransaction <$> [spotify 0; spotify 30]) in
  apply_decision 7 CANCEL m = (Raise KeyError, m)
  ∧ apply_decision_endpoint 7 CANCEL m = (HTTPException 404 "Subscription not found", m).
Proof.
  intros m. destruct (unknown_identifier_rejected m 7 CANCEL) as [Hmanager Hendpoint].
  split.
  - apply Hmanager. vm_compute. by intros [?|?%elem_of_nil]%elem_of_cons.
  - apply Hendpoint. vm_compute. by intros [?|?%elem_of_nil]%elem_of_cons.
Defined.

Lemma apply_decision_cancel m sid s :
  dict_get (_subscriptions m) sid = Some s →
  apply_decision sid CANCEL m
  = (Return (Subscription.copy_status_notes s CANCELLED "Cancelled via assistant"),
     Manager (_transactions m) (_emails m)
       (dict_set (_subscriptions m) sid
          (Subscription.copy_status_notes s CANCELLED "Cancelled via assistant"))
       (if decide (Subscription.status s ≠ CANCELLED)
        then (_saved_total m + Subscription.monthly_cost s)%Q else _saved_total m)
       (_sequence m)).
Proof.
  intros Hget. unfold apply_decision. unfold_method. rewrite Hget.
  by destruct (decide _).
Qed.


(** C6. Cancelling a subscription of the registry returns and stores a
    snapshot with the same next renewal date, monthly cost, identifier,
    provider, reference and last-transaction timestamp; its status is
    Cancelled and its note "Cancelled via assistant"; the entries under
    other identifiers are not touched. *)
Theorem cancel_keeps_renewal_and_cost
    (m : SubscriptionManager) (subscription_id : Z) (s : Subscription.t) :
  dict_get (_subscriptions m) subscription_id = Some s →
  ∃ s' m',
    apply_decision subscription_id CANCEL m = (Return s', m') ∧
    dict_get (_subscriptions m') subscription_id = Some s' ∧
    Subscription.next_renewal_date s' = Subscription.next_renewal_date s ∧
    Subscription.monthly_cost s' = Subscription.monthly_cost s ∧
    Subscription.id s' = Subscription.id s ∧
    Subscription.provider s' = Subscription.provider s ∧
    Subscription.reference s' = Subscription.reference s ∧
    Subscription.last_transaction_at s' = Subscription.last_transaction_at s ∧
    Subscription.status s' = CANCELLED ∧
    Subscription.notes s' = Some "Cancelled via assistant"%string ∧
    (∀ k, k ≠ subscription_id →
          dict_get (_subscriptions m') k = dict_get (_subscriptions m) k).
Proof.
  intros Hget. eexists _, _. split; [by apply apply_decision_cancel|].
  simpl. split; [apply dict_get_set_eq|]. split_and!; try done.
  intros k Hk. by apply dict_get_set_ne.
Qed.

Lemma cancel_keeps_renewal_and_cost_witness :
  ∃ s' m',
    apply_decision 1 CANCEL (run (RegisterTransaction <$> [spotify 0; spotify 30]))
    = (Return s', m')
    ∧ Subscription.next_renewal_date s' = 60
    ∧ (Subscription.monthly_cost s' == 99)%Q.
Proof.
  set (m := run (RegisterTransaction <$> [spotify 0; spotify 30])).
  destruct (cancel_keeps_renewal_and_cost m 1
              (Subscription.mk 1 "Spotify" "Spotify ABO" 99 60 ACTIVE (day 30) None))
    as (s' & m' & Happly & _ & Hdate & Hcost & _).
  - reflexivity.
  - exists s', m'. split; [exact Happly|]. split; [exact Hdate|]. by rewrite Hcost.
Defined.

(** ** The savings accumulator *)





(** ** Emails *)










(** ** The dashboard *)


(** ** Division by zero *)




(** ** The scenarios of the test suite *)

Example test_subscription_detected_from_transactions :
  (register_transaction (spotify 0) init).1 = Return None
  ∧ ∃ s, (register_transaction (spotify 30) (run [RegisterTransaction (spotify 0)])).1
         = Return (Some s)
         ∧ Subscription.provider s = "Spotify"%string
         ∧ (Subscription.monthly_cost s == 99)%Q.
Proof. vm_compute. split; [done|]. eexists. by split_and!. Qed.

Example test_cancel_subscription_updates_savings :
  let m := run (RegisterTransaction <$> [spotify 0; spotify 30]) in
  let m' := perform m (ApplyDecision 1 CANCEL) in
  (apply_decision_endpoint 1 CANCEL m).2 = m'
  ∧ (∃ s, (apply_decision_endpoint 1 CANCEL m).1 = Ok200 s
          ∧ Subscription.status s = CANCELLED)
  ∧ (∃ summary, (dashboard_default (day 60) m').1 = Return summary
                ∧ (99 <= DashboardSummary.total_savings summary)%Q).
Proof.
  vm_compute.
  split_and!; [done | by eexists | eexists; split; [done|]; by vm_compute].
Qed.

Example test_dashboard_upcoming_renewals_from_email_signal :
  let m := run ((RegisterTransaction <$> [spotify 0; spotify 30])
                ++ [IngestEmail spotify_reminder]) in
  ∃ renewal rest summary,
    (dashboard_default today_sample m).1 = Return summary
    ∧ DashboardSummary.upcoming_renewals summary = renewal :: rest
    ∧ Subscription.notes renewal = Some "Renewal reminder synced from email"%string.
Proof. vm_compute. eexists _, _, _. by split_and!. Qed.

Example derive_provider_name_examples :
  _derive_provider_name "Netflix subscription" = "Netflix"%string
  ∧ _derive_provider_name "Disney+ order" = "Disney"%string
  ∧ _derive_provider_name " 12-34 " = "12-34"%string
  ∧ _normalize_description "Spotify ABO" = "spotifyabo"%string.
Proof. by split_and!. Qed.

Example classify_email_examples :
  _classify_email both_tags_email = ["renewal_notice"; "price_increase"]%string
  ∧ _classify_email spotify_reminder = ["renewal_notice"]%string
  ∧ _classify_email price_notice = ["price_increase"]%string.
Proof. by split_and!. Qed.

(** An email with both tags and a subject that names no provider: the
    renewal block finds no match, the price block has rewritten the note. *)
Example both_tags_without_match :
  let m := run (RegisterTransaction <$> [spotify 0; spotify 30]) in
  provider_matches (_derive_provider_name (EmailIn.subject both_tags_email))
    (_subscriptions m) = []
  ∧ (Subscription.notes <$> dict_get (_subscriptions m) 1) = Some None
  ∧ (Subscription.notes <$> dict_get (_subscriptions (ingest_email both_tags_email m).2) 1)
    = Some (Some "Price increase detected on 1970-02-10"%string).
Proof. by vm_compute. Qed.

(** The gap scenario, step by step: what each ingestion returns. *)
Example gap_scenario :
  returned_id (register_transaction (spotify 30)
                 (run [RegisterTransaction (spotify 0)])).1 = Some 1
  ∧ (register_transaction (spotify 100)
       (run (RegisterTransaction <$> [spotify 0; spotify 30]))).1 = Return None
  ∧ returned_id (register_transaction (spotify 130) (run gap_history)).1 = Some 2
  ∧ dict_keys (_subscriptions (perform (run gap_history)
                                 (RegisterTransaction (spotify 130)))) = [1; 2]
  ∧ (TransactionRecord.subscription_id
       <$> _transactions (perform (run gap_history) (RegisterTransaction (spotify 130))))
    = [Some 2; Some 2; Some 2; Some 2].
Proof. by vm_compute. Qed.

Example date_and_rounding_examples :
  date_str 0 = "1970-01-01"%string
  ∧ date_str 19782 = "2024-02-29"%string
  ∧ round2 (2675 # 1000) = (67 # 25)%Q
  ∧ round2 (2665 # 1000) = (133 # 50)%Q
  ∧ timedelta_days (day 30 + 5) (day 0 + 6) = 29.
Proof. by split_and!. Qed.

